(** * tinySynth: sound descriptor, parameter index space, envelope, block mixing

    [tinySynth.h] declares two classes.  [tinySynthSound] is defined in full
    (two inline predicates).  [tinySynthVoice] defines the [Parameters]
    enumeration, lists its members and declares its methods; the method
    bodies are in [tinySynth.cpp] and the envelope is [stk::ADSR], neither of
    which the header contains.  The envelope and the render loop are
    therefore written after the prose specification of the voice, and each
    such definition is marked. *)

From Stdlib Require Import ZArith List Lia.
From Corelib Require PrimFloat.
From stdpp Require Import base decidable option list.

Local Open Scope Z_scope.

(** ** C++ enumerations *)

(** An enumerator declaration: its name and its optional initialiser. *)
Definition enumerator (A : Type) : Type := (A * option Z)%type.

(** The C++ rule for enumerator values: an initialiser gives the value,
    an enumerator without one gets the value of the previous enumerator
    plus one ([prev] is [-1] before the first enumerator, so that an
    enumeration that starts without initialiser starts at zero). *)
Fixpoint enum_values {A : Type} (prev : Z) (decls : list (enumerator A))
  : list (A * Z) :=
  match decls with
  | [] => []
  | (name, init) :: rest =>
      let v := match init with
               | Some v => v
               | None => prev + 1
               end in
      (name, v) :: enum_values v rest
  end.

(** Value of an enumerator in a table of values. *)
Fixpoint enum_lookup {A : Type} `{EqDecision A} (name : A) (table : list (A * Z))
  : option Z :=
  match table with
  | [] => None
  | (n, v) :: rest => if decide (n = name) then Some v else enum_lookup name rest
  end.

(** ** class tinySynthSound *)

Module tinySynthSound.

(** The class has no data member. *)
Record t : Set := tinySynthSound {}.

(** [bool appliesToNote(const int midiNoteNumber) {return true;}] *)
Definition appliesToNote (this : t) (midiNoteNumber : Z) : bool := true.

(** [bool appliesToChannel(const int midiChannel) {return true;}] *)
Definition appliesToChannel (this : t) (midiChannel : Z) : bool := true.

End tinySynthSound.

(** ** class tinySynthVoice *)

Module tinySynthVoice.

(** [enum Parameters]: one constructor per enumerator, in the order of the
    header. *)
Inductive Parameters : Set :=
  (* oscillators *)
  | osc1WaveParam | osc1OctaveParam | osc1LevelParam | osc1LfoParam | osc1EnvParam | osc1OnParam
  | osc2WaveParam | osc2OctaveParam | osc2LevelParam | osc2LfoParam | osc2EnvParam | osc2OnParam
  | osc3WaveParam | osc3OctaveParam | osc3LevelParam | osc3LfoParam | osc3EnvParam | osc3OnParam
  (* envelopes *)
  | adsr1AttackParam | adsr1DecayParam | adsr1SustainParam | adsr1ReleaseParam
  | adsr2AttackParam | adsr2DecayParam | adsr2SustainParam | adsr2ReleaseParam
  | adsr3AttackParam | adsr3DecayParam | adsr3SustainParam | adsr3ReleaseParam
  (* LFOs *)
  | lfo1DestParam | lfo1WaveParam | lfo1FreqParam | lfo1DevParam
  | lfo2DestParam | lfo2WaveParam | lfo2FreqParam | lfo2DevParam
  (* filters *)
  | filter1TypeParam | filter1CutoffParam | filter1ResonanceParam | filter1EnvModDepthParam | filter1EnvParam
  | filter2TypeParam | filter2CutoffParam | filter2ResonanceParam | filter2EnvModDepthParam | filter2EnvParam
  (* delay *)
  | delayTimeParam | delayFeedbackParam | delayGainParam | delayOnParam
  (* output *)
  | noiseParam | driveParam | outputGainParam
  | synthVoiceParam
  (* filter *)
  | filterSequenceParam | filter1LfoParam | filter2LfoParam
  (* reverb *)
  | reverbDryWetParam | reverbSizeParam | reverbDampParam | reverbOnParam
  (* semitones *)
  | osc1SemiToneParam | osc2SemiToneParam | osc3SemiToneParam
  | totalNumParams.

#[global] Instance Parameters_eq_dec : EqDecision Parameters.
Proof. solve_decision. Defined.

(** The enumerator list as the header writes it: only the first
    enumerator, [osc1WaveParam=0], carries an initialiser. *)
Definition Parameters_decl : list (enumerator Parameters) :=
  [ (osc1WaveParam, Some 0); (osc1OctaveParam, None); (osc1LevelParam, None);
    (osc1LfoParam, None); (osc1EnvParam, None); (osc1OnParam, None);
    (osc2WaveParam, None); (osc2OctaveParam, None); (osc2LevelParam, None);
    (osc2LfoParam, None); (osc2EnvParam, None); (osc2OnParam, None);
    (osc3WaveParam, None); (osc3OctaveParam, None); (osc3LevelParam, None);
    (osc3LfoParam, None); (osc3EnvParam, None); (osc3OnParam, None);
    (adsr1AttackParam, None); (adsr1DecayParam, None); (adsr1SustainParam, None);
    (adsr1ReleaseParam, None);
    (adsr2AttackParam, None); (adsr2DecayParam, None); (adsr2SustainParam, None);
    (adsr2ReleaseParam, None);
    (adsr3AttackParam, None); (adsr3DecayParam, None); (adsr3SustainParam, None);
    (adsr3ReleaseParam, None);
    (lfo1DestParam, None); (lfo1WaveParam, None); (lfo1FreqParam, None);
    (lfo1DevParam, None);
    (lfo2DestParam, None); (lfo2WaveParam, None); (lfo2FreqParam, None);
    (lfo2DevParam, None);
    (filter1TypeParam, None); (filter1CutoffParam, None);
    (filter1ResonanceParam, None); (filter1EnvModDepthParam, None);
    (filter1EnvParam, None);
    (filter2TypeParam, None); (filter2CutoffParam, None);
    (filter2ResonanceParam, None); (filter2EnvModDepthParam, None);
    (filter2EnvParam, None);
    (delayTimeParam, None); (delayFeedbackParam, None); (delayGainParam, None);
    (delayOnParam, None);
    (noiseParam, None); (driveParam, None); (outputGainParam, None);
    (synthVoiceParam, None);
    (filterSequenceParam, None); (filter1LfoParam, None); (filter2LfoParam, None);
    (reverbDryWetParam, None); (reverbSizeParam, None); (reverbDampParam, None);
    (reverbOnParam, None);
    (osc1SemiToneParam, None); (osc2SemiToneParam, None); (osc3SemiToneParam, None);
    (totalNumParams, None) ].

(** The values the compiler assigns. *)
Definition Parameters_table : list (Parameters * Z) :=
  enum_values (-1) Parameters_decl.

(** The integer an enumerator converts to; [None] would be a name the
    enumeration does not declare. *)
Definition Parameters_value (p : Parameters) : option Z :=
  enum_lookup p Parameters_table.

(** The named parameter slots: every enumerator but the closing
    [totalNumParams], which names the size of the array and no slot. *)
Definition Parameters_slots : list Parameters :=
  filter (fun p => p <> totalNumParams) (fst <$> Parameters_decl).

(** An index addresses a parameter when it is the value of a slot. *)
Definition valid_index (i : Z) : Prop :=
  exists p, p <> totalNumParams /\ Parameters_value p = Some i.

(** The slot an index addresses, searched in the table of values. *)
Definition slot_of_index (i : Z) : option Parameters :=
  fst <$> find (fun pv => bool_decide (snd pv = i)) Parameters_table.

(** *** [renderNextBlock]

    The header declares
    [void renderNextBlock (AudioSampleBuffer& outputBuffer, int startSample,
    int numSamples)]; its body is in [tinySynth.cpp]. *)

Section Render.

(** The sample type of the buffer and its addition (C++ [float] and [+=]). *)
Variable sample : Type.
Variable add : sample -> sample -> sample.

(** The voice's private state (oscillators, envelopes, filters, LFOs, [freq],
    [keyLevel], ...) and the per-sample signal chain that consumes it:
    one call yields the voice's next output sample and the advanced state. *)
Variable Voice : Type.
Variable nextVoiceSample : Voice -> Voice * sample.

(** A multi-channel buffer: one list of samples per audio channel. *)
Definition AudioSampleBuffer : Type := list (list sample).

(** Modelled from the spec: the body of [renderNextBlock] is missing
    ([tinySynth.cpp]).  Step 6 of the per-sample loop, on one channel: the
    sample is added to what the channel holds at [position].  A position
    outside the channel addresses no sample and nothing is written. *)
Definition addSample (channel : list sample) (position : Z) (value : sample)
  : list sample :=
  if (0 <=? position)%Z
  then alter (fun old => add old value) (Z.to_nat position) channel
  else channel.

(** Modelled from the spec: the body of [renderNextBlock] is missing
    ([tinySynth.cpp]).  Step 6 of the per-sample loop: "mix (add, not
    overwrite) the resulting sample into the destination buffer at the
    corresponding position, for all audio channels". *)
Definition mixSample (outputBuffer : AudioSampleBuffer) (position : Z)
  (value : sample) : AudioSampleBuffer :=
  (fun channel => addSample channel position value) <$> outputBuffer.

(** Modelled from the spec: the body of [renderNextBlock] is missing
    ([tinySynth.cpp]).  The per-sample loop, [remaining] positions from
    [position] on: compute the voice's sample (steps 1 to 5), mix it in
    (step 6), move to the next position. *)
Fixpoint renderLoop (remaining : nat) (voice : Voice)
  (outputBuffer : AudioSampleBuffer) (position : Z) : Voice * AudioSampleBuffer :=
  match remaining with
  | O => (voice, outputBuffer)
  | S remaining' =>
      let (voice', value) := nextVoiceSample voice in
      renderLoop remaining' voice' (mixSample outputBuffer position value)
                 (position + 1)
  end.

(** Modelled from the spec: the body of [renderNextBlock] is missing
    ([tinySynth.cpp]).  "Per-sample loop over
    [[startSample, startSample+numSamples)]"; a count that is not positive
    renders nothing. *)
Definition renderNextBlock (voice : Voice) (outputBuffer : AudioSampleBuffer)
  (startSample numSamples : Z) : Voice * AudioSampleBuffer :=
  renderLoop (Z.to_nat numSamples) voice outputBuffer startSample.

(** The sample the voice computes at the [k]-th position of a block that it
    enters in state [voice]. *)
Fixpoint voiceSample (k : nat) (voice : Voice) : sample :=
  match k with
  | O => snd (nextVoiceSample voice)
  | S k' => voiceSample k' (fst (nextVoiceSample voice))
  end.

End Render.

End tinySynthVoice.

(** ** The envelope generator ([stk::ADSR envelope1, envelope2, envelope3])

    The voice owns three [stk::ADSR] members.  The class is not part of
    [tinySynth.h]; what follows is the envelope of section 4.3 of the voice's
    specification.  Levels and durations are binary64 floating-point numbers
    with their rounding, durations are counted in samples (ticks). *)

Module ADSR.

Import PrimFloat.
Local Open Scope float_scope.

(** Modelled from the spec: [stk::ADSR] is missing.  "States:
    Idle -> Attack -> Decay -> Sustain -> Release -> Idle". *)
Inductive Stage : Set := Idle | Attack | Decay | Sustain | Release.

#[global] Instance Stage_eq_dec : EqDecision Stage.
Proof. solve_decision. Defined.

(** Modelled from the spec: [stk::ADSR] is missing.  "Envelope (ADSR): stage
    (attack/decay/sustain/release/idle), current output level, per-stage
    durations/target sustain level read from ParameterSet."  [origin] is the
    level at which the running ramp started: a ramp "from current level to
    1.0 over the configured attack time" needs it to know its slope. *)
Record Envelope : Set := mkEnvelope {
  stage : Stage;
  level : float;
  origin : float;
  attackTime : float;
  decayTime : float;
  sustainLevel : float;
  releaseTime : float }.

(** The envelope enters stage [s] at level [l]; a ramp that starts there
    starts from [l]. *)
Definition enter (e : Envelope) (s : Stage) (l : float) : Envelope :=
  {| stage := s; level := l; origin := l;
     attackTime := attackTime e; decayTime := decayTime e;
     sustainLevel := sustainLevel e; releaseTime := releaseTime e |}.

(** The envelope stays in its stage and its level becomes [l]. *)
Definition move (e : Envelope) (l : float) : Envelope :=
  {| stage := stage e; level := l; origin := origin e;
     attackTime := attackTime e; decayTime := decayTime e;
     sustainLevel := sustainLevel e; releaseTime := releaseTime e |}.

(** Modelled from the spec: [stk::ADSR] is missing.  "Invalid/out-of-range
    parameter indices or values are clamped to safe defaults": a level is
    kept within [[0, 1]], and what is no number counts as 0. *)
Definition clampLevel (x : float) : float :=
  if 0 <=? x then (if x <=? 1 then x else 1) else 0.



(** Modelled from the spec: [stk::ADSR] is missing.  One sample of a linear
    ramp towards [target] that lasts [time] samples and is followed by stage
    [next].  "Zero-duration stage (attack/decay/release = 0) transitions
    immediately on the same tick rather than dividing by zero", and so does
    a duration that is negative or no number, clamped to zero; otherwise the
    level moves by one sample's share of the way from [origin] to [target],
    and the stage ends when the level reaches the target. *)
Definition ramp (e : Envelope) (rising : bool) (target time : float) (next : Stage)
  : Envelope :=
  if 0 <? time then
    let l := level e + (target - origin e) / time in
    if (if rising then target <=? l else l <=? target)
    then enter e next target
    else move e l
  else enter e next target.

(** Modelled from the spec: [stk::ADSR] is missing.  The state change of
    [tick()]: "transitions Attack->Decay when level reaches 1.0,
    Decay->Sustain when level reaches the configured sustain level,
    Release->Idle when level reaches 0.0". *)
Definition advance (e : Envelope) : Envelope :=
  match stage e with
  | Attack => ramp e true 1 (attackTime e) Decay
  | Decay => ramp e false (clampLevel (sustainLevel e)) (decayTime e) Sustain
  | Sustain => e
  | Release => ramp e false 0 (releaseTime e) Idle
  | Idle => e
  end.

(** Modelled from the spec: [stk::ADSR] is missing.  "tick() -> float:
    advances one sample, returns current envelope level". *)
Definition tick (e : Envelope) : Envelope * float :=
  let e' := advance e in (e', level e').


(** The envelope after [n] calls of [tick()]. *)
Fixpoint ticks (n : nat) (e : Envelope) : Envelope :=
  match n with
  | O => e
  | S n' => ticks n' (fst (tick e))
  end.












End ADSR.

(** ** The layout of the parameter indices

    The header lists the parameters of the oscillators, envelopes, LFOs and
    filters one instance after the other, each instance with the same fields
    in the same order; the semitone and filter-LFO parameters were appended
    later ("From here to be ordered by functionality"), one per instance. *)

Module ParameterLayout.
Import tinySynthVoice.

(** The oscillators' parameters, one row per oscillator:
    wave, octave, level, LFO, envelope, on. *)
Definition oscillatorParams : list (list Parameters) :=
  [ [osc1WaveParam; osc1OctaveParam; osc1LevelParam; osc1LfoParam; osc1EnvParam; osc1OnParam];
    [osc2WaveParam; osc2OctaveParam; osc2LevelParam; osc2LfoParam; osc2EnvParam; osc2OnParam];
    [osc3WaveParam; osc3OctaveParam; osc3LevelParam; osc3LfoParam; osc3EnvParam; osc3OnParam] ].

(** The envelopes' parameters, one row per envelope:
    attack, decay, sustain, release. *)
Definition adsrParams : list (list Parameters) :=
  [ [adsr1AttackParam; adsr1DecayParam; adsr1SustainParam; adsr1ReleaseParam];
    [adsr2AttackParam; adsr2DecayParam; adsr2SustainParam; adsr2ReleaseParam];
    [adsr3AttackParam; adsr3DecayParam; adsr3SustainParam; adsr3ReleaseParam] ].

(** The LFOs' parameters, one row per LFO:
    destination, wave, frequency, deviation. *)
Definition lfoParams : list (list Parameters) :=
  [ [lfo1DestParam; lfo1WaveParam; lfo1FreqParam; lfo1DevParam];
    [lfo2DestParam; lfo2WaveParam; lfo2FreqParam; lfo2DevParam] ].

(** The filters' parameters, one row per filter:
    type, cutoff, resonance, envelope modulation depth, envelope. *)
Definition filterParams : list (list Parameters) :=
  [ [filter1TypeParam; filter1CutoffParam; filter1ResonanceParam;
     filter1EnvModDepthParam; filter1EnvParam];
    [filter2TypeParam; filter2CutoffParam; filter2ResonanceParam;
     filter2EnvModDepthParam; filter2EnvParam] ].

(** The filters' LFO parameter, one row per filter. *)
Definition filterLfoParams : list (list Parameters) :=
  [ [filter1LfoParam]; [filter2LfoParam] ].

(** The oscillators' semitone parameter, one row per oscillator. *)
Definition semiToneParams : list (list Parameters) :=
  [ [osc1SemiToneParam]; [osc2SemiToneParam]; [osc3SemiToneParam] ].

(** The indices of a block of [rows] instances of [cols] fields each that
    starts at [base] and gives every instance [stride] indices: field [j] of
    instance [k] (both counted from zero) is at [base + stride * k + j]. *)
Definition block (base stride : Z) (rows cols : nat) : list (list (option Z)) :=
  (fun k : Z =>
     (fun j : Z => Some (base + stride * k + j)) <$> seqZ 0 (Z.of_nat cols))
    <$> seqZ 0 (Z.of_nat rows).

(** The indices of a table of parameters. *)
Definition indices (table : list (list Parameters)) : list (list (option Z)) :=
  (fun row : list Parameters => Parameters_value <$> row) <$> table.

End ParameterLayout.

(** * Properties *)

(** ** The sound descriptor *)

Module tinySynthSoundFacts.
Import tinySynthSound.

(** C9. Whatever the note number and whatever the channel, [appliesToNote]
    and [appliesToChannel] answer [true]: the sound filters no note event. *)
Theorem sound_applies_to_every_note_and_channel :
  forall (sound : t) (midiNoteNumber midiChannel : Z),
    appliesToNote sound midiNoteNumber = true /\
    appliesToChannel sound midiChannel = true.
Proof. intros sound midiNoteNumber midiChannel. split; reflexivity. Qed.

End tinySynthSoundFacts.

(** ** The parameter index space *)

Module ParametersFacts.
Import tinySynthVoice.

Lemma Parameters_all_declared (p : Parameters) : is_Some (Parameters_value p).
Proof. destruct p; vm_compute; eauto. Qed.

Lemma slot_of_index_sound :
  forallb (fun i => match slot_of_index i with
                    | Some p => bool_decide (p <> totalNumParams) &&
                                bool_decide (Parameters_value p = Some i)
                    | None => false
                    end) (seqZ 0 66) = true.
Proof. vm_compute. reflexivity. Qed.

Lemma valid_index_range (i : Z) : valid_index i <-> 0 <= i < 66.
Proof.
  split.
  - intros (p & Hp & Hv).
    destruct p; vm_compute in Hv; try (injection Hv as <-; lia).
    congruence.
  - intros Hi. pose proof slot_of_index_sound as H.
    rewrite forallb_forall in H. specialize (H i).
    destruct (slot_of_index i) as [p|].
    + exists p. assert (Hin : In i (seqZ 0 66)).
      { apply list_elem_of_In, elem_of_seqZ. lia. }
      apply H in Hin. apply andb_prop in Hin as [H1 H2].
      apply bool_decide_eq_true in H1, H2. auto.
    + assert (Hin : In i (seqZ 0 66)).
      { apply list_elem_of_In, elem_of_seqZ. lia. }
      apply H in Hin. discriminate.
Qed.

(** C10. The enumeration numbers its enumerators consecutively from
    [osc1WaveParam = 0] to [osc3SemiToneParam = 65], [totalNumParams] is 66,
    there are exactly 66 named slots, and the indices that address a slot
    are exactly those of [[0, 66)]. *)
Theorem Parameters_index_space :
  Parameters_value osc1WaveParam = Some 0 /\
  Parameters_value osc3SemiToneParam = Some 65 /\
  Parameters_value totalNumParams = Some 66 /\
  snd <$> Parameters_table = seqZ 0 67 /\
  (forall p, is_Some (Parameters_value p)) /\
  NoDup Parameters_slots /\
  length Parameters_slots = 66%nat /\
  (forall i, valid_index i <-> 0 <= i < 66).
Proof.
  split; [reflexivity|]. split; [reflexivity|]. split; [reflexivity|].
  split; [reflexivity|]. split; [exact Parameters_all_declared|].
  split; [|split; [reflexivity|exact valid_index_range]].
  apply (bool_decide_eq_true_1 (NoDup Parameters_slots)).
  vm_compute. reflexivity.
Qed.

End ParametersFacts.

(** ** Mixing a block into the buffer *)

Module RenderFacts.
Import tinySynthVoice.

Section Mixing.

Variable sample : Type.
Variable add : sample -> sample -> sample.
Variable Voice : Type.
Variable nextVoiceSample : Voice -> Voice * sample.

#[local] Abbreviation addSample := (addSample sample add).
#[local] Abbreviation mixSample := (mixSample sample add).
#[local] Abbreviation renderLoop := (renderLoop sample add Voice nextVoiceSample).
#[local] Abbreviation renderNextBlock := (renderNextBlock sample add Voice nextVoiceSample).
#[local] Abbreviation voiceSample := (voiceSample sample Voice nextVoiceSample).

Lemma length_addSample channel position value :
  length (addSample channel position value) = length channel.
Proof.
  unfold tinySynthVoice.addSample. destruct (0 <=? position); [|reflexivity].
  apply length_alter.
Qed.

Lemma lookup_addSample_here channel (j : nat) value old :
  channel !! j = Some old ->
  addSample channel (Z.of_nat j) value !! j = Some (add old value).
Proof.
  intros H. unfold tinySynthVoice.addSample.
  destruct (Z.leb_spec 0 (Z.of_nat j)); [|lia].
  rewrite Nat2Z.id, list_lookup_alter_eq, H. reflexivity.
Qed.

Lemma lookup_addSample_other channel position (j : nat) value :
  position <> Z.of_nat j ->
  addSample channel position value !! j = channel !! j.
Proof.
  intros H. unfold tinySynthVoice.addSample.
  destruct (Z.leb_spec 0 position); [|reflexivity].
  apply list_lookup_alter_ne. lia.
Qed.

Lemma lookup_mixSample outputBuffer position value (c : nat) channel :
  outputBuffer !! c = Some channel ->
  mixSample outputBuffer position value !! c
  = Some (addSample channel position value).
Proof.
  intros H. unfold tinySynthVoice.mixSample, AudioSampleBuffer in *.
  rewrite list_lookup_fmap, H. reflexivity.
Qed.

Lemma renderLoop_length remaining :
  forall voice outputBuffer position,
    length (snd (renderLoop remaining voice outputBuffer position))
    = length outputBuffer.
Proof.
  induction remaining as [|n IH]; intros voice outputBuffer position; simpl;
    [reflexivity|].
  destruct (nextVoiceSample voice) as [voice' value].
  rewrite IH. unfold tinySynthVoice.mixSample. apply length_fmap.
Qed.

(** What one position of one channel holds after the loop. *)
Lemma renderLoop_lookup remaining :
  forall voice outputBuffer position (c j : nat) channel old,
    outputBuffer !! c = Some channel ->
    channel !! j = Some old ->
    exists channel',
      snd (renderLoop remaining voice outputBuffer position) !! c = Some channel' /\
      length channel' = length channel /\
      (position <= Z.of_nat j < position + Z.of_nat remaining ->
         channel' !! j
         = Some (add old (voiceSample (Z.to_nat (Z.of_nat j - position)) voice))) /\
      (~ position <= Z.of_nat j < position + Z.of_nat remaining ->
         channel' !! j = Some old).
Proof.
  induction remaining as [|n IH];
    intros voice outputBuffer position c j channel old Hc Hj.
  - exists channel. simpl. repeat split; auto. lia.
  - cbn [tinySynthVoice.renderLoop tinySynthVoice.voiceSample].
    destruct (nextVoiceSample voice) as [voice' value] eqn:Hnext.
    pose proof (lookup_mixSample outputBuffer position value c channel Hc) as Hc'.
    destruct (decide (position = Z.of_nat j)) as [->|Hne].
    + pose proof (lookup_addSample_here channel j value old Hj) as Hj'.
      destruct (IH voice' _ (Z.of_nat j + 1) c j _ _ Hc' Hj')
        as (channel' & Hl & Hlen & _ & Hout).
      exists channel'. split; [exact Hl|]. split.
      { rewrite Hlen. apply length_addSample. }
      split; [|lia]. intros _. rewrite Hout by lia.
      replace (Z.to_nat (Z.of_nat j - Z.of_nat j)) with 0%nat by lia.
      cbn [tinySynthVoice.voiceSample]. rewrite Hnext. reflexivity.
    + assert (Hj' : addSample channel position value !! j = Some old).
      { rewrite lookup_addSample_other by exact Hne. exact Hj. }
      destruct (IH voice' _ (position + 1) c j _ _ Hc' Hj')
        as (channel' & Hl & Hlen & Hin & Hout).
      exists channel'. split; [exact Hl|]. split.
      { rewrite Hlen. apply length_addSample. }
      split.
      * intros Hr. rewrite Hin by lia.
        replace (Z.to_nat (Z.of_nat j - position))
          with (S (Z.to_nat (Z.of_nat j - (position + 1)))) by lia.
        cbn [tinySynthVoice.voiceSample]. rewrite Hnext. reflexivity.
      * intros Hr. apply Hout. lia.
Qed.

(** C3. [renderNextBlock] mixes additively and touches nothing else: after
    the call the buffer has the channels it had, each as long as it was;
    a position of [[startSample, startSample+numSamples)] holds, on every
    channel, what it held plus the sample the voice computed for it; every
    other position of every channel holds what it held. *)
Theorem renderNextBlock_mixes_additively
  (voice : Voice) (outputBuffer : list (list sample)) (startSample numSamples : Z)
  (c j : nat) (channel : list sample) (old : sample) :
  outputBuffer !! c = Some channel ->
  channel !! j = Some old ->
  let rendered := snd (renderNextBlock voice outputBuffer startSample numSamples) in
  length rendered = length outputBuffer /\
  exists channel',
    rendered !! c = Some channel' /\
    length channel' = length channel /\
    (startSample <= Z.of_nat j < startSample + numSamples ->
       channel' !! j
       = Some (add old (voiceSample (Z.to_nat (Z.of_nat j - startSample)) voice))) /\
    (~ startSample <= Z.of_nat j < startSample + numSamples ->
       channel' !! j = Some old).
Proof.
  intros Hc Hj rendered. subst rendered. unfold tinySynthVoice.renderNextBlock.
  split; [apply renderLoop_length|].
  destruct (renderLoop_lookup (Z.to_nat numSamples) voice outputBuffer startSample
              c j channel old Hc Hj) as (channel' & Hl & Hlen & Hin & Hout).
  exists channel'. split; [exact Hl|]. split; [exact Hlen|]. split.
  - intros Hr. apply Hin. lia.
  - intros Hr. apply Hout. lia.
Qed.

End Mixing.

(** A voice that counts, on a buffer of two channels of integers: the block
    [[1, 3)] of a call with [startSample = 1] and [numSamples = 2]. *)
Lemma renderNextBlock_mixes_additively_witness :
  let buffer := [[10; 20; 30; 40]; [50; 60; 70; 80]] in
  let count := fun v : Z => (v + 1, 100 * v) in
  let rendered := snd (renderNextBlock Z Z.add Z count 7 buffer 1 2) in
  buffer !! 1%nat = Some [50; 60; 70; 80] /\
  [50; 60; 70; 80] !! 2%nat = Some 70 /\
  rendered = [[10; 720; 830; 40]; [50; 760; 870; 80]] /\
  exists channel',
    rendered !! 1%nat = Some channel' /\ channel' !! 2%nat = Some (70 + 800).
Proof.
  intros buffer count rendered.
  split; [reflexivity|]. split; [reflexivity|]. split; [reflexivity|].
  destruct (renderNextBlock_mixes_additively Z Z.add Z count 7 buffer 1 2
              1%nat 2%nat [50; 60; 70; 80] 70 eq_refl eq_refl)
    as (_ & channel' & Hl & _ & Hin & _).
  exists channel'. split; [exact Hl|]. apply Hin. lia.
Defined.

End RenderFacts.

(** ** The envelope's cycle *)

Module ADSRFacts.
Import PrimFloat ADSR.

Local Open Scope float_scope.













Lemma ticks_idle n : forall e, stage e = Idle -> stage (ticks n e) = Idle.
Proof.
  induction n as [|n IH]; intros e H; simpl; [exact H|].
  apply IH. unfold advance. rewrite H. exact H.
Qed.








End ADSRFacts.

(** ** Parameter indices: no aliasing, block layout *)

Module ParameterLayoutFacts.
Import tinySynthVoice ParameterLayout.

(** Every enumerator is found back from its value. *)
Lemma slot_of_index_value (p : Parameters) :
  exists i, Parameters_value p = Some i /\ slot_of_index i = Some p.
Proof.
  assert (H : forallb (fun q => match Parameters_value q with
                                 | Some i => bool_decide (slot_of_index i = Some q)
                                 | None => false
                                 end) (fst <$> Parameters_decl) = true)
    by (vm_compute; reflexivity).
  rewrite forallb_forall in H. specialize (H p).
  destruct (Parameters_value p) as [i|].
  - exists i. split; [reflexivity|].
    apply (bool_decide_eq_true_1 (slot_of_index i = Some p)), H.
    destruct p; simpl; tauto.
  - assert (false = true); [|discriminate]. apply H. destruct p; simpl; tauto.
Qed.

(** X1. Two different enumerators of [Parameters] never have the same
    value: no two parameters, and no parameter and [totalNumParams], share
    an index of the parameter array. *)
Theorem Parameters_value_no_alias (p q : Parameters) :
  p <> q -> Parameters_value p <> Parameters_value q.
Proof.
  intros Hne Heq.
  destruct (slot_of_index_value p) as (i & Hp & Hip).
  destruct (slot_of_index_value q) as (j & Hq & Hjq).
  rewrite Hp, Hq in Heq. injection Heq as ->.
  rewrite Hip in Hjq. injection Hjq as ->. apply Hne. reflexivity.
Qed.

(** The noise and the drive parameters are different slots. *)
Lemma Parameters_value_no_alias_witness :
  noiseParam <> driveParam /\
  Parameters_value noiseParam <> Parameters_value driveParam.
Proof.
  assert (H : noiseParam <> driveParam) by discriminate.
  split; [exact H|]. exact (Parameters_value_no_alias noiseParam driveParam H).
Defined.

(** X2. The parameters of the oscillators, envelopes, LFOs and filters lie
    in blocks of equal stride: field [j] of instance [k] (from zero) is at
    [6 k + j] for the oscillators, [18 + 4 k + j] for the envelopes,
    [30 + 4 k + j] for the LFOs and [38 + 5 k + j] for the filters.  The
    filter-LFO and semitone parameters are not part of these blocks: they
    follow one another from 57 and from 63. *)
Theorem Parameters_block_layout :
  indices oscillatorParams = block 0 6 3 6 /\
  indices adsrParams = block 18 4 3 4 /\
  indices lfoParams = block 30 4 2 4 /\
  indices filterParams = block 38 5 2 5 /\
  indices filterLfoParams = block 57 1 2 1 /\
  indices semiToneParams = block 63 1 3 1.
Proof. repeat split; vm_compute; reflexivity. Qed.

End ParameterLayoutFacts.
